(** * sloggcp: key translation and error-report extraction

    A shallow embedding of the Go package [github.com/muhlemmer/sloggcp]:
    the attribute rewrite hook [ReplaceAttr] with its level-to-severity
    table, and the error extractor ([assertErrorValue],
    [NewReportLocation], [checkAndSetErrorReport]).

    Go's dynamically typed values ([any]) are an inductive type whose
    last constructor carries the method set of a user-defined type, so
    that a type switch over interfaces becomes a test on which methods
    the value has.  A Go map passed by reference is a [gmap] threaded
    through a small state-and-panic monad; a nil map is [None].  The
    functions come twice: for values whose methods return, and, with
    the suffix [_call], for values whose methods may panic. *)

From Stdlib Require Import ZArith String List Strings.Byte.
From stdpp Require Import base option strings gmap.

Local Open Scope Z_scope.
Local Open Scope string_scope.

#[local] Set Warnings "-register-all".

(** ** Go values *)

(** [type ReportLocation struct] of the package. *)
Record ReportLocation := mkReportLocation {
  FilePath : string;
  LineNumber : Z;
  FunctionName : string
}.

(** The four methods the package asks a value for.  [None] means that
    the dynamic type does not have the method; [Some r] that it has it
    and that it returns [r] on this value.  [meth_ReportLocation] returns
    a [*ReportLocation], which may be nil.  That a call panics instead
    of returning is said apart, by [Panics] below. *)
Record Methods (V : Type) := mkMethods {
  meth_Error : option string;
  meth_StackTrace : option (list byte);
  meth_ReportLocation : option (option ReportLocation);
  meth_LogValue : option V
}.
Arguments mkMethods {V} _ _ _ _.
Arguments meth_Error {V} _.
Arguments meth_StackTrace {V} _.
Arguments meth_ReportLocation {V} _.
Arguments meth_LogValue {V} _.

(** A value of interface type [any], as [slog.Value.Any] returns it:
    the kinds of [slog.Value] come back as [string], [int64], [uint64],
    [float64], [bool], [time.Duration], [time.Time] and [[]slog.Attr];
    everything else is returned as it was stored.  [user_any T ms] is a
    value of any other dynamic type, named [T] by the verb [%T], with
    method set [ms]. *)
Inductive any : Type :=
  | nil_any
  | string_any (s : string)
  | int64_any (n : Z)
  | uint64_any (n : Z)
  | float64_any (bits : Z)
  | bool_any (b : bool)
  | Duration_any (d : Z)
  | Time_any (t : Z)
  | Level_any (l : Z)
  | Source_any (function file : string) (line : Z)
  | ReportLocation_any (r : ReportLocation)
  | Attrs_any (g : list Attr)
  | map_any (m : list (string * any))
  | user_any (T : string) (ms : Methods Value)
with Value : Type :=
  | AnyValue (v : any)
with Attr : Type :=
  | mkAttr (k : string) (v : Value).

(** [func (v Value) Any() any] *)
Definition Any (v : Value) : any := let 'AnyValue x := v in x.

Definition Key (a : Attr) : string := let 'mkAttr k _ := a in k.
Definition Val (a : Attr) : Value := let 'mkAttr _ v := a in v.

(** [a.Key = k] on a local copy of the attribute. *)
Definition set_Key (k : string) (a : Attr) : Attr := mkAttr k (Val a).

(** The names of [log/slog] the package uses. *)
Module slog.
Definition TimeKey := "time".
Definition LevelKey := "level".
Definition MessageKey := "msg".
Definition SourceKey := "source".

Definition LevelDebug : Z := -4.
Definition LevelInfo : Z := 0.
Definition LevelWarn : Z := 4.
Definition LevelError : Z := 8.

Definition StringValue (s : string) : Value := AnyValue (string_any s).
Definition String (key value : string) : Attr := mkAttr key (StringValue value).
Definition Any (key : string) (value : any) : Attr := mkAttr key (AnyValue value).
End slog.

(** ** replace.go *)

Definition SeverityKey := "severity".
Definition MessageKey := "message".
Definition SourceLocationKey := "logging.googleapis.com/sourceLocation".
Definition TimKey := slog.TimeKey.

Definition DebugSeverity := "DEBUG".
Definition InfoSeverity := "INFO".
Definition WarningSeverity := "WARNING".
Definition ErrorSeverity := "ERROR".
Definition DefaultSeverity := "DEFAULT".

Definition severityDebug := slog.String SeverityKey DebugSeverity.
Definition severityInfo := slog.String SeverityKey InfoSeverity.
Definition severityWarn := slog.String SeverityKey WarningSeverity.
Definition severityError := slog.String SeverityKey ErrorSeverity.
Definition severityDefault := slog.String SeverityKey DefaultSeverity.

(** The type assertion [x.(slog.Level)]: the level and [ok]. *)
Definition assert_Level (x : any) : option Z :=
  match x with
  | Level_any l => Some l
  | _ => None
  end.

Definition replaceLevelAttr (a : Attr) : Attr :=
  match assert_Level (Any (Val a)) with
  | None => severityDefault
  | Some logLevel =>
      if Z.eqb logLevel slog.LevelDebug then severityDebug
      else if Z.eqb logLevel slog.LevelInfo then severityInfo
      else if Z.eqb logLevel slog.LevelWarn then severityWarn
      else if Z.eqb logLevel slog.LevelError then severityError
      else severityDefault
  end.

(** The severity table in the words of the specification: DEBUG,
    INFO, WARN and ERROR have their own severity, any other value has
    [DEFAULT]. *)
Definition severity_table (x : any) : string :=
  match x with
  | Level_any (-4) => "DEBUG"
  | Level_any 0 => "INFO"
  | Level_any 4 => "WARNING"
  | Level_any 8 => "ERROR"
  | _ => "DEFAULT"
  end.

Definition ReplaceAttr (groups : list string) (a : Attr) : Attr :=
  if Z.ltb 0 (Z.of_nat (length groups)) then a
  else if String.eqb (Key a) slog.LevelKey then replaceLevelAttr a
  else if String.eqb (Key a) slog.SourceKey then set_Key SourceLocationKey a
  else if String.eqb (Key a) slog.MessageKey then set_Key MessageKey a
  else if String.eqb (Key a) slog.TimeKey then a
  else a.

(** ** errors.go *)

Definition ErrorKey := "error".

Definition ErrorReportTypeKey := "@type".
Definition ErrorReportTypeValue :=
  "type.googleapis.com/google.devtools.clouderrorreporting.v1beta1.ReportedErrorEvent".
Definition ReportLocationKey := "reportLocation".
Definition FilePathKey := "filePath".
Definition LineNumberKey := "lineNumber".
Definition FunctionNameKey := "functionName".

(** *** Method sets and type assertions *)

Definition no_methods : Methods Value := mkMethods None None None None.

(** Only values of user-defined types have any of the four methods:
    none of the predeclared types, [time.Time], [time.Duration],
    [slog.Level], [*slog.Source], [[]slog.Attr], [map[string]any] or
    [*ReportLocation] declares [Error], [StackTrace], [ReportLocation]
    or [LogValue]. *)
Definition methods_of (x : any) : Methods Value :=
  match x with
  | user_any _ ms => ms
  | _ => no_methods
  end.

(** What the verb [%T] prints: the dynamic type of the value. *)
Definition type_name (x : any) : string :=
  match x with
  | nil_any => "<nil>"
  | string_any _ => "string"
  | int64_any _ => "int64"
  | uint64_any _ => "uint64"
  | float64_any _ => "float64"
  | bool_any _ => "bool"
  | Duration_any _ => "time.Duration"
  | Time_any _ => "time.Time"
  | Level_any _ => "slog.Level"
  | Source_any _ _ _ => "*slog.Source"
  | ReportLocation_any _ => "*sloggcp.ReportLocation"
  | Attrs_any _ => "[]slog.Attr"
  | map_any _ => "map[string]interface {}"
  | user_any T _ => T
  end.

(** [x.(error)]: succeeds when the dynamic type has [Error() string];
    the result is what [v.Error()] returns. *)
Definition assert_error (x : any) : option string :=
  meth_Error (methods_of x).

(** [x.(StackTraceError)]: [error] and [StackTrace() []byte]. *)
Definition assert_StackTraceError (x : any) : option (string * list byte) :=
  match meth_Error (methods_of x), meth_StackTrace (methods_of x) with
  | Some e, Some st => Some (e, st)
  | _, _ => None
  end.

(** [x.(ReportLocationError)]: [error] and
    [ReportLocation() *ReportLocation]. *)
Definition assert_ReportLocationError (x : any)
  : option (string * option ReportLocation) :=
  match meth_Error (methods_of x), meth_ReportLocation (methods_of x) with
  | Some e, Some loc => Some (e, loc)
  | _, _ => None
  end.

(** [x.(stackAndReport)]: both interfaces above. *)
Definition assert_stackAndReport (x : any)
  : option (string * list byte * option ReportLocation) :=
  match assert_StackTraceError x, assert_ReportLocationError x with
  | Some (e, st), Some (_, loc) => Some (e, st, loc)
  | _, _ => None
  end.

(** [x.(string)] *)
Definition assert_string (x : any) : option string :=
  match x with
  | string_any s => Some s
  | _ => None
  end.

(** [x.(slog.LogValuer)]: [LogValue() slog.Value]. *)
Definition assert_LogValuer (x : any) : option Value :=
  meth_LogValue (methods_of x).

(** *** The call stack

    [runtime.Caller] and [runtime.FuncForPC] read the stack of the
    running goroutine.  A stack is the list of its frames, innermost
    first; [pc_func = None] is a program counter for which
    [runtime.FuncForPC] returns nil. *)
Record Frame := mkFrame {
  pc_file : string;
  pc_line : Z;
  pc_func : option string
}.

(** Addition on Go's 64-bit [int]. *)
Definition int_add (x y : Z) : Z := (x + y + 2 ^ 63) mod 2 ^ 64 - 2 ^ 63.

(** [runtime.Caller(skip)] on the stack [stk], whose head is the frame
    of the function calling it; [None] is [ok = false].  The runtime
    skips frames only while the count is positive, so for a negative
    [skip] it reports the innermost frame it walks, which is [self],
    the frame of [runtime.Caller] itself. *)
Definition runtime_Caller (self : Frame) (stk : list Frame) (skip : Z)
  : option Frame :=
  if Z.ltb skip 0 then Some self else stk !! Z.to_nat skip.

(** *** Maps passed by reference

    [out map[string]any] is shared with the caller, so a function that
    writes to it is a state transformer on the map.  [None] as a state
    is the nil map; [None] as a result is a panic. *)
Abbreviation GoMap := (option (gmap string any)).

Definition M (A : Type) : Type := GoMap -> option (A * GoMap).

Definition ret {A} (x : A) : M A := fun out => Some (x, out).

Definition bind {A B} (c : M A) (k : A -> M B) : M B :=
  fun out =>
    match c out with
    | None => None
    | Some (x, out') => k x out'
    end.

Declare Scope go_scope.
Delimit Scope go_scope with go.
Notation "c1 ;;; c2" := (bind c1 (fun _ => c2))
  (at level 100, c2 at level 200, right associativity) : go_scope.

(** [out[k] = v]; assignment to an entry of a nil map panics. *)
Definition store (k : string) (v : any) : M unit :=
  fun out =>
    match out with
    | None => None
    | Some m => Some (tt, Some (<[k:=v]> m))
    end.

(** *** Method calls that panic

    A method may panic instead of returning: a method with a value
    receiver does so when it is called through a nil pointer, and any
    method may do so by its own code.  [Panics] says which of the four
    methods of a value panic when they are called; the results in
    [Methods] are those of the methods that return, and the result
    recorded for a method that panics is never looked at.  Whether a
    value satisfies an interface depends on its method set alone. *)
Record Panics := mkPanics {
  panics_Error : bool;
  panics_StackTrace : bool;
  panics_ReportLocation : bool;
  panics_LogValue : bool
}.

Definition no_panics : Panics := mkPanics false false false false.

(** A call returns a result or panics. *)
Inductive outcome (A : Type) : Type :=
  | Returned (x : A)
  | Panicked.
Arguments Returned {A} _.
Arguments Panicked {A}.

(** The call of a method that returns [r] unless it panics. *)
Definition call {A : Type} (panics : bool) (r : A) : outcome A :=
  if panics then Panicked else Returned r.

Definition and_then {A B : Type} (c : outcome A) (k : A -> outcome B)
  : outcome B :=
  match c with
  | Returned x => k x
  | Panicked => Panicked
  end.

(** A call made by a function that writes to the map: its panic is
    the panic of that function. *)
Definition run {A : Type} (c : outcome A) : M A :=
  fun out =>
    match c with
    | Returned x => Some (x, out)
    | Panicked => None
    end.

(** ** The handler

    The level gate of the record compiler. *)

(** A scope node: the root, or a node with its parent, its group name
    and the attributes bound at it. *)
Inductive ScopeNode : Type :=
  | root
  | node (parent : ScopeNode) (group : string) (attrs : list Attr).

(** The recognized options: the minimum level ([None]: unspecified),
    source-location capture, the rewrite hook ([None]: identity). *)
Record Options := mkOptions {
  opt_Level : option Z;
  opt_AddSource : bool;
  opt_ReplaceAttr : option (list string -> Attr -> Attr)
}.

Definition default_options : Options := mkOptions None false None.

(** The configured minimum level, INFO if unspecified. *)
Definition minimum_level (options : Options) : Z :=
  match opt_Level options with
  | Some l => l
  | None => slog.LevelInfo
  end.

Inductive Compiled : Type :=
  | Skip
  | Document (d : gmap string any).

Section Compiler.

(** Steps 2 to 6 of the record compiler (default keys, group
    materialization, call-site attributes, error extraction), which
    run only for a record that passed the gate. *)
Variable resolve :
  ScopeNode -> Z -> string -> list Attr -> Options -> gmap string any.

(** The external encoder. *)
Variable encode : gmap string any -> list byte.

(** Modelled from the spec: the record compiler [compile] of the
    handler, whose source file is not among the sources of the
    package at hand.  Step 1, the level gate: if the level is below
    the configured minimum, the result is [Skip]; otherwise the
    completed document is returned. *)
Definition compile (chain : ScopeNode) (level : Z) (message : string)
    (callAttrs : list Attr) (options : Options) : Compiled :=
  if Z.ltb level (minimum_level options) then Skip
  else Document (resolve chain level message callAttrs options).

(** Modelled from the spec: a logging call on a handler writing to
    [sink], whose source file is not among the sources of the package
    at hand.  The document is handed to the encoder and its bytes go
    to the sink; for [Skip] the encoder and the sink are not
    invoked. *)
Definition log (sink : list byte) (chain : ScopeNode) (level : Z)
    (message : string) (callAttrs : list Attr) (options : Options)
  : list byte :=
  match compile chain level message callAttrs options with
  | Skip => sink
  | Document d => sink ++ encode d
  end.

End Compiler.

(** ** Example values

    The values the handler test logs under the error key, with the
    method results the test expects of them. *)

Definition mockReportLocation : ReportLocation :=
  {| FilePath := "mock.go"; LineNumber := 42; FunctionName := "mock.New" |}.

Definition mockLogValue : Value :=
  AnyValue (Attrs_any [slog.String "key1" "value1";
                       slog.Any "key2" (int64_any 42)]).

Definition mockReportLocationError : any :=
  user_any "sloggcp.mockReportLocationError"
    (mkMethods (Some "mockReportLocationError") None
       (Some (Some mockReportLocation)) None).

Definition mockStackTraceError : any :=
  user_any "sloggcp.mockStackTraceError"
    (mkMethods (Some "mockStackTraceError")
       (Some (list_byte_of_string "stack")) None None).

Definition mockStackAndReport : any :=
  user_any "sloggcp.mockStackAndReport"
    (mkMethods (Some "mockStackAndReport")
       (Some (list_byte_of_string "stack"))
       (Some (Some mockReportLocation)) None).

Definition mockStackAndReportValuer : any :=
  user_any "sloggcp.mockStackAndReportValuer"
    (mkMethods (Some "mockStackAndReportValuer")
       (Some (list_byte_of_string "stack"))
       (Some (Some mockReportLocation)) (Some mockLogValue)).

(** [errors.New("something went wrong")] *)
Definition standardError : any :=
  user_any "*errors.errorString"
    (mkMethods (Some "something went wrong") None None None).

(** A nil pointer of type [*appError], where [appError] declares
    [Error() string] with a value receiver: the pointer type has the
    method, and calling it dereferences nil. *)
Definition nilPointerError : any :=
  user_any "*main.appError" (mkMethods (Some "") None None None).
Definition nilPointerError_panics : Panics := mkPanics true false false false.

(** [fooTypeTest]: a [slog.LogValuer] that is not an error. *)
Definition fooTypeTest : any :=
  user_any "sloggcp.fooType"
    (mkMethods None None None
       (Some (AnyValue (Attrs_any [slog.String "bar" "baz";
                                   slog.Any "baz" (int64_any 42)])))).

(** Frames of a build of the package installed under [/src/sloggcp]. *)
Definition ex_frame_assertErrorValue : Frame :=
  mkFrame "/src/sloggcp/errors.go" 65
    (Some "github.com/muhlemmer/sloggcp.assertErrorValue").
Definition ex_frame_NewReportLocation : Frame :=
  mkFrame "/src/sloggcp/errors.go" 82
    (Some "github.com/muhlemmer/sloggcp.NewReportLocation").
Definition ex_frame_checkAndSetErrorReport : Frame :=
  mkFrame "/src/sloggcp/errors.go" 99
    (Some "github.com/muhlemmer/sloggcp.checkAndSetErrorReport").
Definition ex_frame_runtime_Caller : Frame :=
  mkFrame "/usr/local/go/src/runtime/extern.go" 325 (Some "runtime.Caller").

(** An [extractValue] that unwraps the value and turns a group into a
    map of its attributes, one level deep. *)
Definition ex_extractValue (v : Value) : any :=
  match Any v with
  | Attrs_any g => map_any (map (fun a => (Key a, Any (Val a))) g)
  | x => x
  end.

(** A root mapping as the handler has it before error extraction. *)
Definition ex_root : gmap string any :=
  <[ "severity" := string_any "ERROR" ]>
    (<[ "message" := string_any "error message" ]> empty).

(** The rewrite hook that the handler test "log error string after
    ReplaceAttr" configures: at the top level it renames the key
    ["err"] to [ErrorKey]. *)
Definition TestHandler_ReplaceAttr (groups : list string) (a : Attr) : Attr :=
  if negb (Z.eqb (Z.of_nat (length groups)) 0) then a
  else if String.eqb (Key a) "err" then set_Key ErrorKey a
  else a.

(** ** The error extractor *)

Section Extractor.

(** The frames the runtime records for the functions of the package
    while they wait for their callee: [assertErrorValue] at its call
    of [NewReportLocation], [NewReportLocation] at its call of
    [runtime.Caller], [checkAndSetErrorReport] at its call of
    [assertErrorValue]. *)
Variable frame_assertErrorValue : Frame.
Variable frame_NewReportLocation : Frame.
Variable frame_checkAndSetErrorReport : Frame.

(** [extractValue] belongs to the handler; the extractor only passes
    its result on. *)
Variable extractValue : Value -> any.

(** The frame of [runtime.Caller] itself, in the runtime's own source
    file. *)
Variable frame_runtime_Caller : Frame.

(** [callers]: the frames of the callers, innermost first. *)
Definition NewReportLocation (callers : list Frame) (skip : Z)
  : option ReportLocation :=
  match runtime_Caller frame_runtime_Caller
          (frame_NewReportLocation :: callers) (int_add skip 1) with
  | None => None
  | Some f =>
      match pc_func f with
      | None => None
      | Some name =>
          Some {| FilePath := pc_file f;
                  LineNumber := pc_line f;
                  FunctionName := name |}
      end
  end.

Definition assertErrorValue (callers : list Frame) (value : any)
  : string * option ReportLocation :=
  match assert_stackAndReport value with
  | Some (_, st, loc) => (string_of_list_byte st, loc)
  | None =>
  match assert_StackTraceError value with
  | Some (_, st) => (string_of_list_byte st, None)
  | None =>
  match assert_ReportLocationError value with
  | Some (e, loc) => (e, loc)
  | None =>
  match assert_error value with
  | Some e => (e, None)
  | None =>
  match assert_string value with
  | Some s => (s, None)
  | None =>
      (String.append "!!! can't handle error report for type "
         (String.append (type_name value) " !!!"),
       NewReportLocation (frame_assertErrorValue :: callers) 0)
  end end end end end.

Definition checkAndSetErrorReport (callers : list Frame) (a : Attr) : M bool :=
  if negb (String.eqb (Key a) ErrorKey) then ret false
  else
    let value := Any (Val a) in
    let '(errMsg, reportLocation) :=
      assertErrorValue (frame_checkAndSetErrorReport :: callers) value in
    (store ErrorReportTypeKey (string_any ErrorReportTypeValue) ;;;
     store MessageKey (string_any errMsg) ;;;
     store ErrorKey value ;;;
     match reportLocation with
     | Some loc => store ReportLocationKey (ReportLocation_any loc)
     | None => ret tt
     end ;;;
     match assert_LogValuer value with
     | Some logValue => store ErrorKey (extractValue logValue)
     | None =>
         match assert_error value with
         | Some e => store ErrorKey (string_any e)
         | None => ret tt
         end
     end ;;;
     ret true)%go.

(** [assertErrorValue] on a value whose methods may panic, [p] saying
    which: the type switch looks at the method set only, and each case
    calls the methods it names, in the order of the source. *)
Definition assertErrorValue_call (callers : list Frame) (value : any)
    (p : Panics) : outcome (string * option ReportLocation) :=
  match assert_stackAndReport value with
  | Some (_, st, loc) =>
      and_then (call (panics_StackTrace p) st) (fun st' =>
      and_then (call (panics_ReportLocation p) loc) (fun loc' =>
      Returned (string_of_list_byte st', loc')))
  | None =>
  match assert_StackTraceError value with
  | Some (_, st) =>
      and_then (call (panics_StackTrace p) st) (fun st' =>
      Returned (string_of_list_byte st', None))
  | None =>
  match assert_ReportLocationError value with
  | Some (e, loc) =>
      and_then (call (panics_Error p) e) (fun e' =>
      and_then (call (panics_ReportLocation p) loc) (fun loc' =>
      Returned (e', loc')))
  | None =>
  match assert_error value with
  | Some e =>
      and_then (call (panics_Error p) e) (fun e' => Returned (e', None))
  | None =>
  match assert_string value with
  | Some s => Returned (s, None)
  | None =>
      Returned
        (String.append "!!! can't handle error report for type "
           (String.append (type_name value) " !!!"),
         NewReportLocation (frame_assertErrorValue :: callers) 0)
  end end end end end.

(** [checkAndSetErrorReport] on such a value: the panic of
    [assertErrorValue], of [v.LogValue()] or of the second [v.Error()]
    is its own. *)
Definition checkAndSetErrorReport_call (callers : list Frame) (a : Attr)
    (p : Panics) : M bool :=
  if negb (String.eqb (Key a) ErrorKey) then ret false
  else
    let value := Any (Val a) in
    bind
      (run (assertErrorValue_call (frame_checkAndSetErrorReport :: callers)
              value p))
      (fun r =>
         let '(errMsg, reportLocation) := r in
         (store ErrorReportTypeKey (string_any ErrorReportTypeValue) ;;;
          store MessageKey (string_any errMsg) ;;;
          store ErrorKey value ;;;
          match reportLocation with
          | Some loc => store ReportLocationKey (ReportLocation_any loc)
          | None => ret tt
          end ;;;
          match assert_LogValuer value with
          | Some logValue =>
              bind (run (call (panics_LogValue p) logValue))
                (fun logValue' => store ErrorKey (extractValue logValue'))
          | None =>
              match assert_error value with
              | Some e =>
                  bind (run (call (panics_Error p) e))
                    (fun e' => store ErrorKey (string_any e'))
              | None => ret tt
              end
          end ;;;
          ret true)%go).


(** *** What one run of [checkAndSetErrorReport] leaves in the map *)

Lemma keys_distinct :
  ErrorReportTypeKey <> MessageKey /\ ErrorReportTypeKey <> ErrorKey /\
  ErrorReportTypeKey <> ReportLocationKey /\ MessageKey <> ErrorKey /\
  MessageKey <> ReportLocationKey /\ ErrorKey <> ReportLocationKey.
Proof. repeat split; discriminate. Qed.

Lemma checkAndSetErrorReport_other_key callers a out :
  Key a <> ErrorKey ->
  checkAndSetErrorReport callers a out = Some (false, out).
Proof.
  intros Hk. unfold checkAndSetErrorReport.
  apply String.eqb_neq in Hk. rewrite Hk. reflexivity.
Qed.

Lemma checkAndSetErrorReport_error_key callers a (m : gmap string any) :
  Key a = ErrorKey ->
  let value := Any (Val a) in
  let r := assertErrorValue (frame_checkAndSetErrorReport :: callers) value in
  exists m' : gmap string any,
    checkAndSetErrorReport callers a (Some m) = Some (true, Some m') /\
    m' !! ErrorReportTypeKey = Some (string_any ErrorReportTypeValue) /\
    m' !! MessageKey = Some (string_any (fst r)) /\
    m' !! ErrorKey =
      Some (match assert_LogValuer value with
            | Some logValue => extractValue logValue
            | None =>
                match assert_error value with
                | Some e => string_any e
                | None => value
                end
            end) /\
    m' !! ReportLocationKey =
      match snd r with
      | Some loc => Some (ReportLocation_any loc)
      | None => m !! ReportLocationKey
      end /\
    forall k : string,
      k <> ErrorReportTypeKey -> k <> MessageKey -> k <> ErrorKey ->
      k <> ReportLocationKey -> m' !! k = m !! k.
Proof.
  intros Hk value r. subst r.
  destruct keys_distinct as (H1 & H2 & H3 & H4 & H5 & H6).
  unfold checkAndSetErrorReport.
  apply String.eqb_eq in Hk. rewrite Hk. cbn [negb].
  fold value.
  destruct (assertErrorValue _ value) as [errMsg reportLocation].
  cbn [fst snd].
  destruct reportLocation as [loc|];
    destruct (assert_LogValuer value) as [logValue|];
    try destruct (assert_error value) as [e|];
    cbn [bind store ret]; eexists; (split; [reflexivity|]);
    repeat split; intros; simplify_map_eq; reflexivity.
Qed.

(** *** The dispatch of [assertErrorValue] *)

Lemma assert_string_inv value s :
  assert_string value = Some s -> value = string_any s.
Proof. destruct value; cbn; congruence. Qed.

Lemma assert_error_None_views value :
  assert_error value = None ->
  assert_StackTraceError value = None /\
  assert_ReportLocationError value = None /\
  assert_stackAndReport value = None.
Proof.
  unfold assert_stackAndReport, assert_StackTraceError,
    assert_ReportLocationError, assert_error.
  intros ->. repeat split; reflexivity.
Qed.

(** C2: [assertErrorValue] dispatches in priority order.  A value that
    is both a [StackTraceError] and a [ReportLocationError] yields its
    stack trace as message and its own location; one that is only a
    [StackTraceError] yields its stack trace and no location; one that
    is only a [ReportLocationError] yields its [Error()] text and its
    own location; any other [error] yields its [Error()] text and no
    location; a [string] yields itself and no location. *)
Theorem assertErrorValue_dispatch (callers : list Frame) (value : any) :
  (forall e e' st loc,
      assert_StackTraceError value = Some (e, st) ->
      assert_ReportLocationError value = Some (e', loc) ->
      assertErrorValue callers value = (string_of_list_byte st, loc)) /\
  (forall e st,
      assert_StackTraceError value = Some (e, st) ->
      assert_ReportLocationError value = None ->
      assertErrorValue callers value = (string_of_list_byte st, None)) /\
  (forall e loc,
      assert_StackTraceError value = None ->
      assert_ReportLocationError value = Some (e, loc) ->
      assertErrorValue callers value = (e, loc)) /\
  (forall e,
      assert_StackTraceError value = None ->
      assert_ReportLocationError value = None ->
      assert_error value = Some e ->
      assertErrorValue callers value = (e, None)) /\
  (forall s,
      assert_string value = Some s ->
      assertErrorValue callers value = (s, None)).
Proof.
  repeat split.
  - intros e e' st loc Hst Hrl. unfold assertErrorValue, assert_stackAndReport.
    rewrite Hst, Hrl. reflexivity.
  - intros e st Hst Hrl. unfold assertErrorValue, assert_stackAndReport.
    rewrite Hst, Hrl. reflexivity.
  - intros e loc Hst Hrl. unfold assertErrorValue, assert_stackAndReport.
    rewrite Hst, Hrl. reflexivity.
  - intros e Hst Hrl He. unfold assertErrorValue, assert_stackAndReport.
    rewrite Hst, Hrl, He. reflexivity.
  - intros s Hs. apply assert_string_inv in Hs. subst value. reflexivity.
Qed.

(** C5: for a value that is neither a [string] nor an [error] (and so
    neither a [StackTraceError] nor a [ReportLocationError]),
    [assertErrorValue] returns the diagnostic message naming the
    dynamic type of the value, together with the result of
    [NewReportLocation(0)] called from [assertErrorValue]: the frame of
    [assertErrorValue] itself, whatever its callers are, whenever the
    runtime knows the function of that frame. *)
Theorem assertErrorValue_unrecognized (callers : list Frame) (value : any) :
  assert_string value = None ->
  assert_error value = None ->
  assertErrorValue callers value =
    (String.append "!!! can't handle error report for type "
       (String.append (type_name value) " !!!"),
     NewReportLocation (frame_assertErrorValue :: callers) 0) /\
  NewReportLocation (frame_assertErrorValue :: callers) 0 =
    match pc_func frame_assertErrorValue with
    | Some name =>
        Some {| FilePath := pc_file frame_assertErrorValue;
                LineNumber := pc_line frame_assertErrorValue;
                FunctionName := name |}
    | None => None
    end.
Proof.
  intros Hs He. split.
  - destruct (assert_error_None_views value He) as (Hst & Hrl & Hboth).
    unfold assertErrorValue. rewrite Hboth, Hst, Hrl, He, Hs. reflexivity.
  - reflexivity.
Qed.

Lemma assertErrorValue_call_returns callers value p :
  panics_Error p = false ->
  panics_StackTrace p = false ->
  panics_ReportLocation p = false ->
  assertErrorValue_call callers value p
  = Returned (assertErrorValue callers value).
Proof.
  intros He Hst Hrl.
  unfold assertErrorValue_call, assertErrorValue. rewrite He, Hst, Hrl.
  repeat (match goal with |- context [match ?x with _ => _ end] =>
            destruct x end); reflexivity.
Qed.

Lemma assertErrorValue_call_panicked callers value p :
  assertErrorValue_call callers value p = Panicked ->
  is_Some (assert_error value) /\
  (panics_Error p = true \/ panics_StackTrace p = true \/
   panics_ReportLocation p = true).
Proof.
  unfold assertErrorValue_call.
  destruct (assert_error value) as [e|] eqn:He.
  - intros Hpanic. split; [eauto|].
    destruct (panics_Error p); [auto|].
    destruct (panics_StackTrace p); [auto|].
    destruct (panics_ReportLocation p); [auto|].
    exfalso. revert Hpanic.
    repeat (match goal with |- context [match ?x with _ => _ end] =>
              destruct x end); discriminate.
  - destruct (assert_error_None_views value He) as (Hst & Hrl & Hboth).
    rewrite Hboth, Hst, Hrl.
    destruct (assert_string value); discriminate.
Qed.

Lemma assertErrorValue_call_callers callers callers' value p :
  assertErrorValue_call callers' value p = assertErrorValue_call callers value p.
Proof.
  unfold assertErrorValue_call.
  repeat (match goal with |- context [match ?x with _ => _ end] =>
            destruct x end); reflexivity.
Qed.

Lemma checkAndSetErrorReport_call_returns callers a p out :
  panics_Error p = false ->
  panics_StackTrace p = false ->
  panics_ReportLocation p = false ->
  panics_LogValue p = false ->
  checkAndSetErrorReport_call callers a p out
  = checkAndSetErrorReport callers a out.
Proof.
  intros He Hst Hrl Hlv.
  unfold checkAndSetErrorReport_call, checkAndSetErrorReport.
  destruct (negb (String.eqb (Key a) ErrorKey)); [reflexivity|].
  rewrite (assertErrorValue_call_returns _ _ p He Hst Hrl).
  rewrite He, Hlv.
  destruct (assertErrorValue _ _) as [errMsg reportLocation].
  unfold bind, run, call.
  destruct out as [m|]; [|reflexivity]. cbn [store ret].
  destruct reportLocation as [loc|];
    destruct (assert_LogValuer (Any (Val a))) as [logValue|];
    try destruct (assert_error (Any (Val a))) as [e|];
    reflexivity.
Qed.


(** *** The error report *)

(** C1: for an attribute whose key is ["error"], on the root mapping,
    [checkAndSetErrorReport] returns true and leaves a mapping in which
    ["@type"] is the fixed type of an error report, ["message"] is the
    message derived by [assertErrorValue] (whatever it was before), and
    ["reportLocation"] is the derived location when there is one and is
    not touched when there is none. *)
Theorem checkAndSetErrorReport_error_report
    (callers : list Frame) (a : Attr) (m : gmap string any) :
  Key a = ErrorKey ->
  exists m' : gmap string any,
    checkAndSetErrorReport callers a (Some m) = Some (true, Some m') /\
    m' !! "@type" =
      Some (string_any
        "type.googleapis.com/google.devtools.clouderrorreporting.v1beta1.ReportedErrorEvent") /\
    m' !! "message" =
      Some (string_any
        (fst (assertErrorValue (frame_checkAndSetErrorReport :: callers)
                (Any (Val a))))) /\
    (forall loc,
        snd (assertErrorValue (frame_checkAndSetErrorReport :: callers)
               (Any (Val a))) = Some loc ->
        m' !! "reportLocation" = Some (ReportLocation_any loc)) /\
    (snd (assertErrorValue (frame_checkAndSetErrorReport :: callers)
            (Any (Val a))) = None ->
     m' !! "reportLocation" = m !! "reportLocation").
Proof.
  intros Hk.
  destruct (checkAndSetErrorReport_error_key callers a m Hk)
    as (m' & Hrun & Hty & Hmsg & _ & Hloc & _).
  exists m'. split; [exact Hrun|]. split; [exact Hty|]. split; [exact Hmsg|].
  split.
  - intros loc Hsome. rewrite Hsome in Hloc. exact Hloc.
  - intros Hnone. rewrite Hnone in Hloc. exact Hloc.
Qed.

(** C4: when the error report is triggered, the value stored under
    ["error"] is the expansion of [LogValue()] for a [slog.LogValuer],
    also when the value is an [error] as well; otherwise the [Error()]
    text of an [error]; otherwise the value itself. *)
Theorem checkAndSetErrorReport_stored_error
    (callers : list Frame) (a : Attr) (m : gmap string any) :
  Key a = ErrorKey ->
  exists m' : gmap string any,
    checkAndSetErrorReport callers a (Some m) = Some (true, Some m') /\
    (forall logValue,
        assert_LogValuer (Any (Val a)) = Some logValue ->
        m' !! "error" = Some (extractValue logValue)) /\
    (forall e,
        assert_LogValuer (Any (Val a)) = None ->
        assert_error (Any (Val a)) = Some e ->
        m' !! "error" = Some (string_any e)) /\
    (assert_LogValuer (Any (Val a)) = None ->
     assert_error (Any (Val a)) = None ->
     m' !! "error" = Some (Any (Val a))).
Proof.
  intros Hk.
  destruct (checkAndSetErrorReport_error_key callers a m Hk)
    as (m' & Hrun & _ & _ & Herr & _).
  exists m'. split; [exact Hrun|]. repeat split.
  - intros logValue Hlv. rewrite Hlv in Herr. exact Herr.
  - intros e Hlv He. rewrite Hlv, He in Herr. exact Herr.
  - intros Hlv He. rewrite Hlv, He in Herr. exact Herr.
Qed.

(** C10: for an attribute whose key is not ["error"],
    [checkAndSetErrorReport] returns false and leaves the map, nil or
    not, as it is.  For the key ["error"] every key other than
    ["@type"], ["message"], ["error"] and ["reportLocation"] keeps its
    entry, or its absence; on the nil map the first write panics and
    nothing is written. *)
Theorem checkAndSetErrorReport_frame (callers : list Frame) (a : Attr) :
  (Key a <> "error" ->
   forall out : GoMap,
     checkAndSetErrorReport callers a out = Some (false, out)) /\
  (Key a = "error" ->
   (forall m : gmap string any,
       exists m' : gmap string any,
         checkAndSetErrorReport callers a (Some m) = Some (true, Some m') /\
         forall k : string,
           k <> "@type" -> k <> "message" -> k <> "error" ->
           k <> "reportLocation" -> m' !! k = m !! k) /\
   checkAndSetErrorReport callers a None = None).
Proof.
  split.
  - intros Hk out. apply checkAndSetErrorReport_other_key. exact Hk.
  - intros Hk. split.
    + intros m.
      destruct (checkAndSetErrorReport_error_key callers a m Hk)
        as (m' & Hrun & _ & _ & _ & _ & Hframe).
      exists m'. split; [exact Hrun | exact Hframe].
    + unfold checkAndSetErrorReport.
      apply String.eqb_eq in Hk. fold ErrorKey in Hk. rewrite Hk. cbn [negb].
      destruct (assertErrorValue _ _) as [errMsg reportLocation].
      reflexivity.
Qed.

(** *** More on [NewReportLocation] *)

Lemma int_add_small (x y : Z) :
  - 2 ^ 63 <= x + y < 2 ^ 63 -> int_add x y = x + y.
Proof.
  intros H. unfold int_add.
  rewrite Z.mod_small; lia.
Qed.

Lemma NewReportLocation_lookup (callers : list Frame) (skip : Z) :
  0 <= skip < 2 ^ 63 - 1 ->
  NewReportLocation callers skip =
    match callers !! Z.to_nat skip with
    | Some f =>
        match pc_func f with
        | Some name =>
            Some {| FilePath := pc_file f;
                    LineNumber := pc_line f;
                    FunctionName := name |}
        | None => None
        end
    | None => None
    end.
Proof.
  intros Hskip. unfold NewReportLocation, runtime_Caller.
  rewrite int_add_small by lia.
  destruct (Z.ltb_spec (skip + 1) 0) as [Hneg|_]; [lia|].
  replace (Z.to_nat (skip + 1)) with (S (Z.to_nat skip)) by lia.
  reflexivity.
Qed.



(** *** More on [assertErrorValue] *)

Lemma assertErrorValue_callers (callers callers' : list Frame) (value : any) :
  assertErrorValue callers value = assertErrorValue callers' value.
Proof.
  unfold assertErrorValue.
  repeat (match goal with |- context [match ?x with _ => _ end] =>
            destruct x end); reflexivity.
Qed.

(** X7: an error that keeps the result of [NewReportLocation(0)],
    taken in the function that created it, and returns it from
    [ReportLocation()], gets that very place back from
    [assertErrorValue]: the file, line and function of its creator,
    wherever it is logged from. *)
Theorem assertErrorValue_created_location
    (creator : Frame) (above callers : list Frame) (name T e : string)
    (st : option (list byte)) (logValue : option Value) :
  pc_func creator = Some name ->
  snd (assertErrorValue callers
         (user_any T
            (mkMethods (Some e) st
               (Some (NewReportLocation (creator :: above) 0)) logValue)))
  = Some {| FilePath := pc_file creator;
            LineNumber := pc_line creator;
            FunctionName := name |}.
Proof.
  intros Hname.
  rewrite NewReportLocation_lookup by lia.
  change (Z.to_nat 0) with 0%nat.
  change ((creator :: above) !! 0%nat) with (Some creator).
  cbv beta iota. rewrite Hname.
  unfold assertErrorValue, assert_stackAndReport, assert_StackTraceError,
    assert_ReportLocationError.
  cbn [methods_of meth_Error meth_StackTrace meth_ReportLocation].
  destruct st; reflexivity.
Qed.

(** *** More on [checkAndSetErrorReport] *)

Lemma checkAndSetErrorReport_nil callers a :
  Key a = ErrorKey -> checkAndSetErrorReport callers a None = None.
Proof.
  intros Hk. unfold checkAndSetErrorReport.
  apply String.eqb_eq in Hk. rewrite Hk. cbn [negb].
  destruct (assertErrorValue _ _) as [errMsg reportLocation].
  reflexivity.
Qed.

Lemma Key_ReplaceAttr_error (groups : list string) (a : Attr) :
  Key a <> ErrorKey -> Key (ReplaceAttr groups a) <> ErrorKey.
Proof.
  intros Hk. unfold ReplaceAttr.
  destruct (Z.ltb 0 (Z.of_nat (length groups))); [exact Hk|].
  destruct (String.eqb (Key a) slog.LevelKey).
  { unfold replaceLevelAttr.
    repeat (match goal with |- context [match ?x with _ => _ end] =>
              destruct x end); discriminate. }
  destruct (String.eqb (Key a) slog.SourceKey); [discriminate|].
  destruct (String.eqb (Key a) slog.MessageKey); [discriminate|].
  destruct (String.eqb (Key a) slog.TimeKey); exact Hk.
Qed.

(** X8: passing an attribute through [ReplaceAttr] first, at any group
    path, changes nothing for the error report: [ReplaceAttr] neither
    renames the ["error"] key nor renames another key to it. *)
Theorem checkAndSetErrorReport_after_ReplaceAttr
    (callers : list Frame) (groups : list string) (a : Attr) (out : GoMap) :
  checkAndSetErrorReport callers (ReplaceAttr groups a) out
  = checkAndSetErrorReport callers a out.
Proof.
  destruct (string_dec (Key a) ErrorKey) as [Hk|Hk].
  - assert (Hfix : ReplaceAttr groups a = a).
    { unfold ReplaceAttr. rewrite Hk.
      destruct (Z.ltb 0 (Z.of_nat (length groups))); reflexivity. }
    rewrite Hfix. reflexivity.
  - rewrite (checkAndSetErrorReport_other_key callers a out Hk).
    apply checkAndSetErrorReport_other_key.
    apply Key_ReplaceAttr_error. exact Hk.
Qed.

(** X9: [checkAndSetErrorReport] is idempotent: running it again with
    the same attribute on the map it left, from any call stack, returns
    the same result and leaves the map as it is. *)
Theorem checkAndSetErrorReport_idempotent
    (callers callers' : list Frame) (a : Attr) (out out' : GoMap) (b : bool) :
  checkAndSetErrorReport callers a out = Some (b, out') ->
  checkAndSetErrorReport callers' a out' = Some (b, out').
Proof.
  intros Hrun.
  destruct (string_dec (Key a) ErrorKey) as [Hk|Hk].
  - destruct out as [m|];
      [|rewrite (checkAndSetErrorReport_nil callers a Hk) in Hrun; discriminate].
    destruct (checkAndSetErrorReport_error_key callers a m Hk)
      as (m1 & Hrun1 & Hty1 & Hmsg1 & Herr1 & Hloc1 & Hframe1).
    rewrite Hrun1 in Hrun. injection Hrun as <- <-.
    destruct (checkAndSetErrorReport_error_key callers' a m1 Hk)
      as (m2 & Hrun2 & Hty2 & Hmsg2 & Herr2 & Hloc2 & Hframe2).
    rewrite Hrun2. do 3 f_equal.
    rewrite (assertErrorValue_callers _ (frame_checkAndSetErrorReport :: callers))
      in Hmsg2, Hloc2.
    apply map_eq. intros k.
    destruct (decide (k = ErrorReportTypeKey)) as [->|Hn1]; [congruence|].
    destruct (decide (k = MessageKey)) as [->|Hn2]; [congruence|].
    destruct (decide (k = ErrorKey)) as [->|Hn3]; [congruence|].
    destruct (decide (k = ReportLocationKey)) as [->|Hn4].
    + rewrite Hloc2, Hloc1.
      destruct (snd (assertErrorValue _ _)); reflexivity.
    + apply Hframe2; assumption.
  - rewrite (checkAndSetErrorReport_other_key callers a out Hk) in Hrun.
    injection Hrun as <- <-.
    apply checkAndSetErrorReport_other_key. exact Hk.
Qed.

(** X10: of two error attributes handled one after the other on the
    same map, the second decides every entry except ["reportLocation"]:
    the map agrees there with the one the second attribute alone would
    leave.  ["reportLocation"] is the location of the second when it
    has one; when it has none, the location written for the first one
    stays in the map. *)
Theorem checkAndSetErrorReport_twice
    (callers : list Frame) (a1 a2 : Attr) (m : gmap string any) :
  Key a1 = ErrorKey -> Key a2 = ErrorKey ->
  exists m1 m2 m2' : gmap string any,
    checkAndSetErrorReport callers a1 (Some m) = Some (true, Some m1) /\
    checkAndSetErrorReport callers a2 (Some m1) = Some (true, Some m2) /\
    checkAndSetErrorReport callers a2 (Some m) = Some (true, Some m2') /\
    (forall k : string, k <> "reportLocation" -> m2 !! k = m2' !! k) /\
    (forall loc2,
        snd (assertErrorValue (frame_checkAndSetErrorReport :: callers)
               (Any (Val a2))) = Some loc2 ->
        m2 !! "reportLocation" = Some (ReportLocation_any loc2)) /\
    (forall loc1,
        snd (assertErrorValue (frame_checkAndSetErrorReport :: callers)
               (Any (Val a1))) = Some loc1 ->
        snd (assertErrorValue (frame_checkAndSetErrorReport :: callers)
               (Any (Val a2))) = None ->
        m2 !! "reportLocation" = Some (ReportLocation_any loc1)).
Proof.
  intros Hk1 Hk2.
  destruct (checkAndSetErrorReport_error_key callers a1 m Hk1)
    as (m1 & Hrun1 & Hty1 & Hmsg1 & Herr1 & Hloc1 & Hframe1).
  destruct (checkAndSetErrorReport_error_key callers a2 m1 Hk2)
    as (m2 & Hrun2 & Hty2 & Hmsg2 & Herr2 & Hloc2 & Hframe2).
  destruct (checkAndSetErrorReport_error_key callers a2 m Hk2)
    as (m2' & Hrun2' & Hty2' & Hmsg2' & Herr2' & Hloc2' & Hframe2').
  exists m1, m2, m2'.
  split; [exact Hrun1|]. split; [exact Hrun2|]. split; [exact Hrun2'|].
  split; [|split].
  - intros k Hn4. fold ReportLocationKey in Hn4.
    destruct (decide (k = ErrorReportTypeKey)) as [->|Hn1]; [congruence|].
    destruct (decide (k = MessageKey)) as [->|Hn2]; [congruence|].
    destruct (decide (k = ErrorKey)) as [->|Hn3]; [congruence|].
    rewrite Hframe2, Hframe2', Hframe1 by assumption. reflexivity.
  - intros loc2 Hsome. fold ReportLocationKey. rewrite Hloc2, Hsome.
    reflexivity.
  - intros loc1 Hsome Hnone. fold ReportLocationKey.
    rewrite Hloc2, Hnone, Hloc1, Hsome. reflexivity.
Qed.

(** X11: an error report removes no key.  The keys of the map it
    leaves are those it found together with ["@type"], ["message"] and
    ["error"], and with ["reportLocation"] when a location was
    derived. *)
Theorem checkAndSetErrorReport_dom
    (callers : list Frame) (a : Attr) (m : gmap string any) :
  Key a = ErrorKey ->
  exists m' : gmap string any,
    checkAndSetErrorReport callers a (Some m) = Some (true, Some m') /\
    dom m' =
      dom m ∪ {[ "@type"; "message"; "error" ]} ∪
      match snd (assertErrorValue (frame_checkAndSetErrorReport :: callers)
                   (Any (Val a))) with
      | Some _ => {[ "reportLocation" ]}
      | None => ∅
      end.
Proof.
  intros Hk.
  destruct (checkAndSetErrorReport_error_key callers a m Hk)
    as (m' & Hrun & Hty & Hmsg & Herr & Hloc & Hframe).
  exists m'. split; [exact Hrun|].
  unfold ErrorReportTypeKey, MessageKey, ErrorKey, ReportLocationKey in *.
  apply set_eq. intros k.
  destruct (snd (assertErrorValue _ _)) as [loc|];
    rewrite !elem_of_union, ?elem_of_singleton, ?elem_of_empty, !elem_of_dom.
  - destruct (decide (k = "@type")) as [->|Hn1];
      [rewrite Hty; intuition eauto|].
    destruct (decide (k = "message")) as [->|Hn2];
      [rewrite Hmsg; intuition eauto|].
    destruct (decide (k = "error")) as [->|Hn3];
      [rewrite Herr; intuition eauto|].
    destruct (decide (k = "reportLocation")) as [->|Hn4];
      [rewrite Hloc; intuition eauto|].
    rewrite (Hframe k Hn1 Hn2 Hn3 Hn4). intuition congruence.
  - destruct (decide (k = "@type")) as [->|Hn1];
      [rewrite Hty; intuition eauto|].
    destruct (decide (k = "message")) as [->|Hn2];
      [rewrite Hmsg; intuition eauto|].
    destruct (decide (k = "error")) as [->|Hn3];
      [rewrite Herr; intuition eauto|].
    assert (Hsame : m' !! k = m !! k).
    { destruct (decide (k = "reportLocation")) as [->|Hn4];
        [exact Hloc | exact (Hframe k Hn1 Hn2 Hn3 Hn4)]. }
    rewrite Hsame. intuition congruence.
Qed.

(** X12: for a plain string, and for an error that has no stack trace
    and is no [slog.LogValuer], the report stores the same text under
    ["message"] and under ["error"]. *)
Theorem checkAndSetErrorReport_message_is_error
    (callers : list Frame) (a : Attr) (m : gmap string any) :
  Key a = ErrorKey ->
  assert_StackTraceError (Any (Val a)) = None ->
  assert_LogValuer (Any (Val a)) = None ->
  is_Some (assert_error (Any (Val a))) \/
    is_Some (assert_string (Any (Val a))) ->
  exists (m' : gmap string any) (text : string),
    checkAndSetErrorReport callers a (Some m) = Some (true, Some m') /\
    m' !! "message" = Some (string_any text) /\
    m' !! "error" = Some (string_any text).
Proof.
  intros Hk Hst Hlv Hrec.
  destruct (checkAndSetErrorReport_error_key callers a m Hk)
    as (m' & Hrun & _ & Hmsg & Herr & _).
  rewrite Hlv in Herr.
  destruct Hrec as [[e He] | [s Hs]].
  - exists m', e. split; [exact Hrun|].
    rewrite He in Herr. split; [|exact Herr].
    etransitivity; [exact Hmsg|]. do 2 f_equal.
    unfold assertErrorValue, assert_stackAndReport. rewrite Hst.
    destruct (assert_ReportLocationError (Any (Val a))) as [[e' loc]|] eqn:Hrl.
    + unfold assert_ReportLocationError in Hrl. unfold assert_error in He.
      rewrite He in Hrl.
      destruct (meth_ReportLocation (methods_of (Any (Val a))));
        [|discriminate].
      injection Hrl as <- _. reflexivity.
    + rewrite He. reflexivity.
  - exists m', s. split; [exact Hrun|].
    apply assert_string_inv in Hs. rewrite Hs in Herr, Hmsg.
    split; [exact Hmsg | exact Herr].
Qed.

(** X13: a value under the ["error"] key that is neither a string nor
    an error, a [slog.LogValuer] that is no error included, is reported
    with the message naming its type and with the place of
    [assertErrorValue] itself as ["reportLocation"]; under ["error"]
    the expansion of its [LogValue()] is stored if it has one, and the
    value itself otherwise. *)
Theorem checkAndSetErrorReport_unrecognized
    (callers : list Frame) (a : Attr) (m : gmap string any) (name : string) :
  Key a = ErrorKey ->
  assert_string (Any (Val a)) = None ->
  assert_error (Any (Val a)) = None ->
  pc_func frame_assertErrorValue = Some name ->
  exists m' : gmap string any,
    checkAndSetErrorReport callers a (Some m) = Some (true, Some m') /\
    m' !! "message" =
      Some (string_any
              (String.append "!!! can't handle error report for type "
                 (String.append (type_name (Any (Val a))) " !!!"))) /\
    m' !! "reportLocation" =
      Some (ReportLocation_any
              {| FilePath := pc_file frame_assertErrorValue;
                 LineNumber := pc_line frame_assertErrorValue;
                 FunctionName := name |}) /\
    m' !! "error" =
      Some (match assert_LogValuer (Any (Val a)) with
            | Some logValue => extractValue logValue
            | None => Any (Val a)
            end).
Proof.
  intros Hk Hs He Hname.
  destruct (checkAndSetErrorReport_error_key callers a m Hk)
    as (m' & Hrun & _ & Hmsg & Herr & Hloc & _).
  exists m'. split; [exact Hrun|].
  destruct (assert_error_None_views _ He) as (Hst & Hrl & Hboth).
  assert (Hres :
    assertErrorValue (frame_checkAndSetErrorReport :: callers) (Any (Val a))
    = (String.append "!!! can't handle error report for type "
         (String.append (type_name (Any (Val a))) " !!!"),
       Some {| FilePath := pc_file frame_assertErrorValue;
               LineNumber := pc_line frame_assertErrorValue;
               FunctionName := name |})).
  { unfold assertErrorValue. rewrite Hboth, Hst, Hrl, He, Hs.
    f_equal. rewrite NewReportLocation_lookup by lia.
    change (Z.to_nat 0) with 0%nat.
    change ((frame_assertErrorValue :: frame_checkAndSetErrorReport :: callers)
              !! 0%nat) with (Some frame_assertErrorValue).
    cbv beta iota. rewrite Hname. reflexivity. }
  rewrite Hres in Hmsg, Hloc. rewrite He in Herr.
  split; [exact Hmsg|]. split; [exact Hloc | exact Herr].
Qed.

(** X14: with the test's rewrite hook in front, the error report is
    triggered exactly by the key ["error"], and at the top level also
    by the key ["err"]; inside a group ["err"] is not renamed and
    triggers nothing. *)
Theorem TestHandler_ReplaceAttr_triggers
    (callers : list Frame) (groups : list string) (a : Attr)
    (m : gmap string any) :
  exists (b : bool) (m' : gmap string any),
    checkAndSetErrorReport callers (TestHandler_ReplaceAttr groups a) (Some m)
    = Some (b, Some m') /\
    (b = true <-> Key a = "error" \/ (groups = [] /\ Key a = "err")).
Proof.
  unfold TestHandler_ReplaceAttr.
  destruct groups as [|g groups]; cbn [length Z.of_nat Z.eqb negb].
  - destruct (String.eqb_spec (Key a) "err") as [Herr|Herr].
    + destruct (checkAndSetErrorReport_error_key callers
                  (set_Key ErrorKey a) m eq_refl) as (m' & Hrun & _).
      exists true, m'. split; [exact Hrun|]. split; auto.
    + destruct (string_dec (Key a) ErrorKey) as [Hk|Hk].
      * destruct (checkAndSetErrorReport_error_key callers a m Hk)
          as (m' & Hrun & _).
        exists true, m'. split; [exact Hrun|]. split; auto.
      * exists false, m.
        split; [apply checkAndSetErrorReport_other_key; exact Hk|].
        split; [discriminate|]. intros [Hk'|[_ Herr']]; contradiction.
  - destruct (string_dec (Key a) ErrorKey) as [Hk|Hk].
    + destruct (checkAndSetErrorReport_error_key callers a m Hk)
        as (m' & Hrun & _).
      exists true, m'. split; [exact Hrun|]. split; auto.
    + exists false, m.
      split; [apply checkAndSetErrorReport_other_key; exact Hk|].
      split; [discriminate|]. intros [Hk'|[Hnil _]]; [contradiction|discriminate].
Qed.

End Extractor.

(** ** The key and severity table *)

Lemma severity_table_Level (l : Z) :
  severity_table (Level_any l) =
    if Z.eqb l slog.LevelDebug then DebugSeverity
    else if Z.eqb l slog.LevelInfo then InfoSeverity
    else if Z.eqb l slog.LevelWarn then WarningSeverity
    else if Z.eqb l slog.LevelError then ErrorSeverity
    else DefaultSeverity.
Proof.
  destruct l as [|p|p]; [reflexivity| |];
    do 4 (try destruct p as [p|p|]); reflexivity.
Qed.

Lemma severity_table_not_Level (x : any) :
  assert_Level x = None -> severity_table x = DefaultSeverity.
Proof. destruct x; cbn; intros H; try reflexivity; discriminate. Qed.

Lemma replaceLevelAttr_table (a : Attr) :
  replaceLevelAttr a = slog.String SeverityKey (severity_table (Any (Val a))).
Proof.
  unfold replaceLevelAttr.
  destruct (assert_Level (Any (Val a))) as [l|] eqn:Hl.
  - destruct (Any (Val a)); try discriminate.
    injection Hl as ->. rewrite severity_table_Level.
    repeat (match goal with |- context [Z.eqb ?x ?y] =>
              destruct (Z.eqb x y) end); reflexivity.
  - rewrite (severity_table_not_Level _ Hl). reflexivity.
Qed.

(** C3: the translation of a level attribute is total.  The result is
    always the ["severity"] attribute whose value the table gives:
    DEBUG, INFO, WARN and ERROR map to ["DEBUG"], ["INFO"], ["WARNING"]
    and ["ERROR"]; every other level number, and every value that is
    not a level, maps to ["DEFAULT"]. *)
Theorem replaceLevelAttr_severity :
  (forall a : Attr,
      replaceLevelAttr a =
        slog.String "severity" (severity_table (Any (Val a)))) /\
  (forall k, replaceLevelAttr (slog.Any k (Level_any slog.LevelDebug))
             = slog.String "severity" "DEBUG") /\
  (forall k, replaceLevelAttr (slog.Any k (Level_any slog.LevelInfo))
             = slog.String "severity" "INFO") /\
  (forall k, replaceLevelAttr (slog.Any k (Level_any slog.LevelWarn))
             = slog.String "severity" "WARNING") /\
  (forall k, replaceLevelAttr (slog.Any k (Level_any slog.LevelError))
             = slog.String "severity" "ERROR") /\
  (forall k l,
      l <> slog.LevelDebug -> l <> slog.LevelInfo ->
      l <> slog.LevelWarn -> l <> slog.LevelError ->
      replaceLevelAttr (slog.Any k (Level_any l))
      = slog.String "severity" "DEFAULT") /\
  (forall a : Attr,
      assert_Level (Any (Val a)) = None ->
      replaceLevelAttr a = slog.String "severity" "DEFAULT").
Proof.
  split; [exact replaceLevelAttr_table|].
  repeat split; try reflexivity.
  - intros k l Hd Hi Hw He. unfold replaceLevelAttr. cbn.
    apply Z.eqb_neq in Hd, Hi, Hw, He. rewrite Hd, Hi, Hw, He. reflexivity.
  - intros a Hl. unfold replaceLevelAttr. rewrite Hl. reflexivity.
Qed.

Lemma ReplaceAttr_top (a : Attr) :
  ReplaceAttr [] a =
    if String.eqb (Key a) slog.LevelKey then replaceLevelAttr a
    else if String.eqb (Key a) slog.SourceKey then set_Key SourceLocationKey a
    else if String.eqb (Key a) slog.MessageKey then set_Key MessageKey a
    else a.
Proof.
  unfold ReplaceAttr. cbn [length Z.of_nat Z.ltb Z.compare].
  destruct (String.eqb (Key a) slog.TimeKey); reflexivity.
Qed.

(** C6: at the top level, [ReplaceAttr] returns the time attribute as
    it is, replaces the level attribute by the ["severity"] attribute
    holding the severity string, renames the message attribute to
    ["message"] and the source attribute to
    ["logging.googleapis.com/sourceLocation"], both with their value
    kept. *)
Theorem ReplaceAttr_default_keys (a : Attr) :
  (Key a = slog.TimeKey -> ReplaceAttr [] a = a) /\
  (Key a = slog.LevelKey ->
   ReplaceAttr [] a = slog.String "severity" (severity_table (Any (Val a)))) /\
  (Key a = slog.MessageKey -> ReplaceAttr [] a = mkAttr "message" (Val a)) /\
  (Key a = slog.SourceKey ->
   ReplaceAttr [] a = mkAttr "logging.googleapis.com/sourceLocation" (Val a)).
Proof.
  rewrite ReplaceAttr_top.
  repeat split; intros Hk; rewrite Hk; cbn.
  - destruct a as [k v]. cbn in Hk. subst k. reflexivity.
  - apply replaceLevelAttr_table.
  - reflexivity.
  - reflexivity.
Qed.

(** C9: inside a group, [ReplaceAttr] returns every attribute as it is,
    the level, source, message and time attributes included; an
    attribute that it changes is a top-level one. *)
Theorem ReplaceAttr_nested (groups : list string) (a : Attr) :
  (groups <> [] -> ReplaceAttr groups a = a) /\
  (ReplaceAttr groups a <> a -> groups = []).
Proof.
  assert (Hne : groups <> [] -> ReplaceAttr groups a = a).
  { intros Hg. unfold ReplaceAttr.
    destruct groups as [|g groups]; [congruence|]. reflexivity. }
  split; [exact Hne|].
  intros Hchg. destruct groups as [|g groups]; [reflexivity|].
  exfalso. apply Hchg, Hne. discriminate.
Qed.

(** ** The level gate *)

(** C7: a log call whose level is below the configured minimum, which
    is INFO when none is configured, compiles to [Skip], and the sink
    is left as it was: no byte is written to it. *)
Theorem compile_level_gate
    (resolve : ScopeNode -> Z -> string -> list Attr -> Options -> gmap string any)
    (encode : gmap string any -> list byte)
    (sink : list byte) (chain : ScopeNode) (level : Z) (message : string)
    (callAttrs : list Attr) (options : Options) :
  (opt_Level options = None -> minimum_level options = slog.LevelInfo) /\
  (level < minimum_level options ->
   compile resolve chain level message callAttrs options = Skip /\
   log resolve encode sink chain level message callAttrs options = sink).
Proof.
  split.
  - intros Hnone. unfold minimum_level. rewrite Hnone. reflexivity.
  - intros Hlt. apply Z.ltb_lt in Hlt.
    unfold log, compile. rewrite Hlt. split; reflexivity.
Qed.

(** ** The theorems at the values of the tests *)

Lemma replaceLevelAttr_severity_witness :
  replaceLevelAttr (slog.Any slog.LevelKey (Level_any (-1)))
    = slog.String "severity" "DEFAULT" /\
  replaceLevelAttr (slog.Any slog.LevelKey (string_any "invalid"))
    = slog.String "severity" "DEFAULT".
Proof.
  destruct replaceLevelAttr_severity as (_ & _ & _ & _ & _ & Hcustom & Hother).
  split.
  - apply Hcustom; discriminate.
  - apply Hother. reflexivity.
Defined.

Lemma ReplaceAttr_default_keys_witness :
  ReplaceAttr [] (slog.Any slog.TimeKey (Time_any 1577836800))
    = slog.Any "time" (Time_any 1577836800) /\
  ReplaceAttr [] (slog.Any slog.LevelKey (Level_any slog.LevelWarn))
    = slog.String "severity" "WARNING" /\
  ReplaceAttr [] (slog.String slog.MessageKey "test")
    = slog.String "message" "test" /\
  ReplaceAttr [] (slog.Any slog.SourceKey (Source_any "test" "test.go" 1))
    = slog.Any "logging.googleapis.com/sourceLocation"
        (Source_any "test" "test.go" 1).
Proof.
  split; [|split; [|split]].
  - apply (ReplaceAttr_default_keys
             (slog.Any slog.TimeKey (Time_any 1577836800))). reflexivity.
  - apply (ReplaceAttr_default_keys
             (slog.Any slog.LevelKey (Level_any slog.LevelWarn))). reflexivity.
  - apply (ReplaceAttr_default_keys (slog.String slog.MessageKey "test")).
    reflexivity.
  - apply (ReplaceAttr_default_keys
             (slog.Any slog.SourceKey (Source_any "test" "test.go" 1))).
    reflexivity.
Defined.

Lemma ReplaceAttr_nested_witness :
  ReplaceAttr ["nested"] (slog.Any slog.LevelKey (Level_any slog.LevelInfo))
    = slog.Any slog.LevelKey (Level_any slog.LevelInfo) /\
  ([] : list string) = [].
Proof.
  split.
  - apply (ReplaceAttr_nested ["nested"]). discriminate.
  - apply (ReplaceAttr_nested []
             (slog.Any slog.LevelKey (Level_any slog.LevelInfo))).
    discriminate.
Defined.

Lemma compile_level_gate_witness :
  minimum_level default_options = slog.LevelInfo /\
  compile (fun _ _ _ _ _ => empty) root slog.LevelDebug "this is debug"
    [slog.Any "foo" fooTypeTest] default_options = Skip /\
  log (fun _ _ _ _ _ => empty) (fun _ => []) [] root slog.LevelDebug
    "this is debug" [slog.Any "foo" fooTypeTest] default_options = [].
Proof.
  destruct (compile_level_gate (fun _ _ _ _ _ => empty) (fun _ => []) []
              root slog.LevelDebug "this is debug"
              [slog.Any "foo" fooTypeTest] default_options)
    as (Hdefault & Hgate).
  split.
  - apply Hdefault. reflexivity.
  - apply Hgate. reflexivity.
Defined.

Lemma assertErrorValue_dispatch_witness :
  assertErrorValue ex_frame_assertErrorValue ex_frame_NewReportLocation ex_frame_runtime_Caller []
    mockStackAndReport = ("stack", Some mockReportLocation) /\
  assertErrorValue ex_frame_assertErrorValue ex_frame_NewReportLocation ex_frame_runtime_Caller []
    mockStackTraceError = ("stack", None) /\
  assertErrorValue ex_frame_assertErrorValue ex_frame_NewReportLocation ex_frame_runtime_Caller []
    mockReportLocationError
    = ("mockReportLocationError", Some mockReportLocation) /\
  assertErrorValue ex_frame_assertErrorValue ex_frame_NewReportLocation ex_frame_runtime_Caller []
    standardError = ("something went wrong", None) /\
  assertErrorValue ex_frame_assertErrorValue ex_frame_NewReportLocation ex_frame_runtime_Caller []
    (string_any "something went wrong") = ("something went wrong", None).
Proof.
  split; [|split; [|split; [|split]]].
  - destruct (assertErrorValue_dispatch ex_frame_assertErrorValue
                ex_frame_NewReportLocation ex_frame_runtime_Caller [] mockStackAndReport)
      as (H & _).
    exact (H "mockStackAndReport" "mockStackAndReport"
             (list_byte_of_string "stack") (Some mockReportLocation)
             eq_refl eq_refl).
  - destruct (assertErrorValue_dispatch ex_frame_assertErrorValue
                ex_frame_NewReportLocation ex_frame_runtime_Caller [] mockStackTraceError)
      as (_ & H & _).
    exact (H "mockStackTraceError" (list_byte_of_string "stack")
             eq_refl eq_refl).
  - destruct (assertErrorValue_dispatch ex_frame_assertErrorValue
                ex_frame_NewReportLocation ex_frame_runtime_Caller [] mockReportLocationError)
      as (_ & _ & H & _).
    apply H; reflexivity.
  - destruct (assertErrorValue_dispatch ex_frame_assertErrorValue
                ex_frame_NewReportLocation ex_frame_runtime_Caller [] standardError)
      as (_ & _ & _ & H & _).
    apply H; reflexivity.
  - destruct (assertErrorValue_dispatch ex_frame_assertErrorValue
                ex_frame_NewReportLocation ex_frame_runtime_Caller []
                (string_any "something went wrong"))
      as (_ & _ & _ & _ & H).
    apply H; reflexivity.
Defined.

Lemma assertErrorValue_unrecognized_witness :
  assertErrorValue ex_frame_assertErrorValue ex_frame_NewReportLocation ex_frame_runtime_Caller
    [ex_frame_checkAndSetErrorReport] (int64_any 5)
  = ("!!! can't handle error report for type int64 !!!",
     Some {| FilePath := "/src/sloggcp/errors.go";
             LineNumber := 65;
             FunctionName := "github.com/muhlemmer/sloggcp.assertErrorValue" |}).
Proof.
  destruct (assertErrorValue_unrecognized ex_frame_assertErrorValue
              ex_frame_NewReportLocation ex_frame_runtime_Caller [ex_frame_checkAndSetErrorReport]
              (int64_any 5) eq_refl eq_refl) as (Hres & Hloc).
  rewrite Hres, Hloc. reflexivity.
Defined.

Lemma checkAndSetErrorReport_error_report_witness :
  (exists m' : gmap string any,
      checkAndSetErrorReport ex_frame_assertErrorValue
        ex_frame_NewReportLocation ex_frame_checkAndSetErrorReport
        ex_extractValue ex_frame_runtime_Caller [] (slog.Any "error" mockStackAndReport) (Some ex_root)
      = Some (true, Some m') /\
      m' !! "@type" = Some (string_any ErrorReportTypeValue) /\
      m' !! "message" = Some (string_any "stack") /\
      m' !! "reportLocation" = Some (ReportLocation_any mockReportLocation)) /\
  (exists m' : gmap string any,
      checkAndSetErrorReport ex_frame_assertErrorValue
        ex_frame_NewReportLocation ex_frame_checkAndSetErrorReport
        ex_extractValue ex_frame_runtime_Caller [] (slog.String "error" "something went wrong")
        (Some ex_root)
      = Some (true, Some m') /\
      m' !! "@type" = Some (string_any ErrorReportTypeValue) /\
      m' !! "message" = Some (string_any "something went wrong") /\
      m' !! "reportLocation" = None).
Proof.
  split.
  - destruct (checkAndSetErrorReport_error_report ex_frame_assertErrorValue
                ex_frame_NewReportLocation ex_frame_checkAndSetErrorReport
                ex_extractValue ex_frame_runtime_Caller [] (slog.Any "error" mockStackAndReport)
                ex_root eq_refl)
      as (m' & Hrun & Hty & Hmsg & Hsome & _).
    exists m'. split; [exact Hrun|]. split; [exact Hty|]. split; [exact Hmsg|].
    apply Hsome. reflexivity.
  - destruct (checkAndSetErrorReport_error_report ex_frame_assertErrorValue
                ex_frame_NewReportLocation ex_frame_checkAndSetErrorReport
                ex_extractValue ex_frame_runtime_Caller [] (slog.String "error" "something went wrong")
                ex_root eq_refl)
      as (m' & Hrun & Hty & Hmsg & _ & Hnone).
    exists m'. split; [exact Hrun|]. split; [exact Hty|]. split; [exact Hmsg|].
    rewrite Hnone; reflexivity.
Defined.

Lemma checkAndSetErrorReport_stored_error_witness :
  (exists m' : gmap string any,
      checkAndSetErrorReport ex_frame_assertErrorValue
        ex_frame_NewReportLocation ex_frame_checkAndSetErrorReport
        ex_extractValue ex_frame_runtime_Caller [] (slog.Any "error" mockStackAndReportValuer)
        (Some ex_root)
      = Some (true, Some m') /\
      m' !! "error"
      = Some (map_any [("key1", string_any "value1");
                       ("key2", int64_any 42)])) /\
  (exists m' : gmap string any,
      checkAndSetErrorReport ex_frame_assertErrorValue
        ex_frame_NewReportLocation ex_frame_checkAndSetErrorReport
        ex_extractValue ex_frame_runtime_Caller [] (slog.Any "error" standardError) (Some ex_root)
      = Some (true, Some m') /\
      m' !! "error" = Some (string_any "something went wrong")) /\
  (exists m' : gmap string any,
      checkAndSetErrorReport ex_frame_assertErrorValue
        ex_frame_NewReportLocation ex_frame_checkAndSetErrorReport
        ex_extractValue ex_frame_runtime_Caller [] (slog.Any "error" (int64_any 5)) (Some ex_root)
      = Some (true, Some m') /\
      m' !! "error" = Some (int64_any 5)).
Proof.
  split; [|split].
  - destruct (checkAndSetErrorReport_stored_error ex_frame_assertErrorValue
                ex_frame_NewReportLocation ex_frame_checkAndSetErrorReport
                ex_extractValue ex_frame_runtime_Caller [] (slog.Any "error" mockStackAndReportValuer)
                ex_root eq_refl)
      as (m' & Hrun & Hvaluer & _).
    exists m'. split; [exact Hrun|].
    exact (Hvaluer mockLogValue eq_refl).
  - destruct (checkAndSetErrorReport_stored_error ex_frame_assertErrorValue
                ex_frame_NewReportLocation ex_frame_checkAndSetErrorReport
                ex_extractValue ex_frame_runtime_Caller [] (slog.Any "error" standardError)
                ex_root eq_refl)
      as (m' & Hrun & _ & Herror & _).
    exists m'. split; [exact Hrun|].
    exact (Herror "something went wrong" eq_refl eq_refl).
  - destruct (checkAndSetErrorReport_stored_error ex_frame_assertErrorValue
                ex_frame_NewReportLocation ex_frame_checkAndSetErrorReport
                ex_extractValue ex_frame_runtime_Caller [] (slog.Any "error" (int64_any 5))
                ex_root eq_refl)
      as (m' & Hrun & _ & _ & Hverbatim).
    exists m'. split; [exact Hrun|].
    exact (Hverbatim eq_refl eq_refl).
Defined.

Lemma checkAndSetErrorReport_frame_witness :
  checkAndSetErrorReport ex_frame_assertErrorValue
    ex_frame_NewReportLocation ex_frame_checkAndSetErrorReport
    ex_extractValue ex_frame_runtime_Caller [] (slog.String "err" "something went wrong")
    (Some ex_root)
  = Some (false, Some ex_root) /\
  (exists m' : gmap string any,
      checkAndSetErrorReport ex_frame_assertErrorValue
        ex_frame_NewReportLocation ex_frame_checkAndSetErrorReport
        ex_extractValue ex_frame_runtime_Caller [] (slog.Any "error" mockStackAndReport) (Some ex_root)
      = Some (true, Some m') /\
      m' !! "severity" = Some (string_any "ERROR") /\
      m' !! "foo" = None) /\
  checkAndSetErrorReport ex_frame_assertErrorValue
    ex_frame_NewReportLocation ex_frame_checkAndSetErrorReport
    ex_extractValue ex_frame_runtime_Caller [] (slog.Any "error" mockStackAndReport) None
  = None.
Proof.
  split; [|split].
  - apply (checkAndSetErrorReport_frame ex_frame_assertErrorValue
             ex_frame_NewReportLocation ex_frame_checkAndSetErrorReport
             ex_extractValue ex_frame_runtime_Caller [] (slog.String "err" "something went wrong")).
    discriminate.
  - destruct (checkAndSetErrorReport_frame ex_frame_assertErrorValue
                ex_frame_NewReportLocation ex_frame_checkAndSetErrorReport
                ex_extractValue ex_frame_runtime_Caller [] (slog.Any "error" mockStackAndReport))
      as (_ & Herr).
    destruct (Herr eq_refl) as (Hmaps & _).
    destruct (Hmaps ex_root) as (m' & Hrun & Hframe).
    exists m'. split; [exact Hrun|]. split.
    + rewrite Hframe; [reflexivity | discriminate ..].
    + rewrite Hframe; [reflexivity | discriminate ..].
  - destruct (checkAndSetErrorReport_frame ex_frame_assertErrorValue
                ex_frame_NewReportLocation ex_frame_checkAndSetErrorReport
                ex_extractValue ex_frame_runtime_Caller [] (slog.Any "error" mockStackAndReport))
      as (_ & Herr).
    destruct (Herr eq_refl) as (_ & Hnil). exact Hnil.
Defined.

(** ** More on [ReplaceAttr] *)

Lemma Key_replaceLevelAttr (a : Attr) : Key (replaceLevelAttr a) = SeverityKey.
Proof. rewrite replaceLevelAttr_table. reflexivity. Qed.

Lemma Key_set_Key (k : string) (a : Attr) : Key (set_Key k a) = k.
Proof. reflexivity. Qed.

(** X1: [ReplaceAttr] returns an attribute as it is exactly when the
    attribute is inside a group or its key is none of slog's level,
    source and message keys; every other key, ["error"] and the keys
    of the package included, passes through at the top level. *)
Theorem ReplaceAttr_fixed_points (groups : list string) (a : Attr) :
  ReplaceAttr groups a = a <->
  (groups <> [] \/
   (Key a <> slog.LevelKey /\ Key a <> slog.SourceKey /\
    Key a <> slog.MessageKey)).
Proof.
  split.
  - intros Hfix. destruct groups as [|g groups]; [right | left; discriminate].
    rewrite ReplaceAttr_top in Hfix.
    destruct (String.eqb_spec (Key a) slog.LevelKey) as [Hl|Hl].
    { apply (f_equal Key) in Hfix. rewrite Key_replaceLevelAttr, Hl in Hfix.
      discriminate. }
    destruct (String.eqb_spec (Key a) slog.SourceKey) as [Hs|Hs].
    { apply (f_equal Key) in Hfix. rewrite Key_set_Key, Hs in Hfix.
      discriminate. }
    destruct (String.eqb_spec (Key a) slog.MessageKey) as [Hm|Hm].
    { apply (f_equal Key) in Hfix. rewrite Key_set_Key, Hm in Hfix.
      discriminate. }
    auto.
  - intros [Hg | (Hl & Hs & Hm)].
    + destruct groups as [|g groups]; [congruence | reflexivity].
    + destruct groups as [|g groups]; [|reflexivity].
      rewrite ReplaceAttr_top.
      apply String.eqb_neq in Hl, Hs, Hm. rewrite Hl, Hs, Hm. reflexivity.
Qed.

(** X2: [ReplaceAttr] changes no value but that of the top-level level
    attribute: for every other attribute the value of the result is
    the value given, whatever happens to the key. *)
Theorem ReplaceAttr_value_kept (groups : list string) (a : Attr) :
  Key a <> slog.LevelKey -> Val (ReplaceAttr groups a) = Val a.
Proof.
  intros Hl. destruct groups as [|g groups]; [|reflexivity].
  rewrite ReplaceAttr_top. apply String.eqb_neq in Hl. rewrite Hl.
  destruct (String.eqb (Key a) slog.SourceKey); [reflexivity|].
  destruct (String.eqb (Key a) slog.MessageKey); reflexivity.
Qed.

(** X3: at the top level no result of [ReplaceAttr] carries one of
    slog's keys ["level"], ["source"] or ["msg"]. *)
Theorem ReplaceAttr_no_slog_key (a : Attr) :
  Key (ReplaceAttr [] a) <> slog.LevelKey /\
  Key (ReplaceAttr [] a) <> slog.SourceKey /\
  Key (ReplaceAttr [] a) <> slog.MessageKey.
Proof.
  rewrite ReplaceAttr_top.
  destruct (String.eqb_spec (Key a) slog.LevelKey) as [Hl|Hl].
  { rewrite Key_replaceLevelAttr. repeat split; discriminate. }
  destruct (String.eqb_spec (Key a) slog.SourceKey) as [Hs|Hs].
  { rewrite Key_set_Key. repeat split; discriminate. }
  destruct (String.eqb_spec (Key a) slog.MessageKey) as [Hm|Hm].
  { rewrite Key_set_Key. repeat split; discriminate. }
  auto.
Qed.

(** X4: [ReplaceAttr] is idempotent: applied to its own result, for
    the same group path, it changes nothing more. *)
Theorem ReplaceAttr_idempotent (groups : list string) (a : Attr) :
  ReplaceAttr groups (ReplaceAttr groups a) = ReplaceAttr groups a.
Proof.
  destruct groups as [|g groups]; [|reflexivity].
  rewrite (ReplaceAttr_top a).
  destruct (String.eqb (Key a) slog.LevelKey) eqn:Hl.
  { rewrite replaceLevelAttr_table. reflexivity. }
  destruct (String.eqb (Key a) slog.SourceKey) eqn:Hs; [reflexivity|].
  destruct (String.eqb (Key a) slog.MessageKey) eqn:Hm; [reflexivity|].
  rewrite ReplaceAttr_top, Hl, Hs, Hm. reflexivity.
Qed.

(** ** The further theorems at concrete values *)

Lemma ReplaceAttr_fixed_points_witness :
  ReplaceAttr [] (slog.String "test" "test") = slog.String "test" "test" /\
  (["nested"] <> [] \/
   (Key (slog.Any slog.LevelKey (Level_any slog.LevelInfo)) <> slog.LevelKey /\
    Key (slog.Any slog.LevelKey (Level_any slog.LevelInfo)) <> slog.SourceKey /\
    Key (slog.Any slog.LevelKey (Level_any slog.LevelInfo)) <> slog.MessageKey)).
Proof.
  split.
  - apply (proj2 (ReplaceAttr_fixed_points [] (slog.String "test" "test"))).
    right. repeat split; discriminate.
  - apply (proj1 (ReplaceAttr_fixed_points ["nested"]
                    (slog.Any slog.LevelKey (Level_any slog.LevelInfo)))).
    reflexivity.
Defined.

Lemma ReplaceAttr_value_kept_witness :
  Val (ReplaceAttr [] (slog.Any slog.SourceKey (Source_any "test" "test.go" 1)))
  = AnyValue (Source_any "test" "test.go" 1).
Proof.
  apply (ReplaceAttr_value_kept []
           (slog.Any slog.SourceKey (Source_any "test" "test.go" 1))).
  discriminate.
Defined.



Lemma assertErrorValue_created_location_witness :
  snd (assertErrorValue ex_frame_assertErrorValue ex_frame_NewReportLocation ex_frame_runtime_Caller
         [ex_frame_checkAndSetErrorReport]
         (user_any "*main.locatedError"
            (mkMethods (Some "something went wrong") None
               (Some (NewReportLocation ex_frame_NewReportLocation ex_frame_runtime_Caller
                        [mkFrame "/src/app/main.go" 12 (Some "main.run")] 0))
               None)))
  = Some {| FilePath := "/src/app/main.go";
            LineNumber := 12;
            FunctionName := "main.run" |}.
Proof.
  apply (assertErrorValue_created_location ex_frame_assertErrorValue
           ex_frame_NewReportLocation ex_frame_runtime_Caller
           (mkFrame "/src/app/main.go" 12 (Some "main.run")) []
           [ex_frame_checkAndSetErrorReport] "main.run").
  reflexivity.
Defined.

Lemma checkAndSetErrorReport_idempotent_witness :
  exists out' : GoMap,
    checkAndSetErrorReport ex_frame_assertErrorValue
      ex_frame_NewReportLocation ex_frame_checkAndSetErrorReport
      ex_extractValue ex_frame_runtime_Caller [] (slog.Any "error" mockStackAndReportValuer)
      (Some ex_root) = Some (true, out') /\
    checkAndSetErrorReport ex_frame_assertErrorValue
      ex_frame_NewReportLocation ex_frame_checkAndSetErrorReport
      ex_extractValue ex_frame_runtime_Caller [ex_frame_assertErrorValue]
      (slog.Any "error" mockStackAndReportValuer) out' = Some (true, out').
Proof.
  eexists. split; [vm_compute; reflexivity|].
  apply (checkAndSetErrorReport_idempotent ex_frame_assertErrorValue
           ex_frame_NewReportLocation ex_frame_checkAndSetErrorReport
           ex_extractValue ex_frame_runtime_Caller [] [ex_frame_assertErrorValue]
           (slog.Any "error" mockStackAndReportValuer) (Some ex_root)).
  vm_compute; reflexivity.
Defined.

Lemma checkAndSetErrorReport_twice_witness :
  exists m1 m2 : gmap string any,
    checkAndSetErrorReport ex_frame_assertErrorValue
      ex_frame_NewReportLocation ex_frame_checkAndSetErrorReport
      ex_extractValue ex_frame_runtime_Caller [] (slog.Any "error" mockReportLocationError)
      (Some ex_root) = Some (true, Some m1) /\
    checkAndSetErrorReport ex_frame_assertErrorValue
      ex_frame_NewReportLocation ex_frame_checkAndSetErrorReport
      ex_extractValue ex_frame_runtime_Caller [] (slog.String "error" "something went wrong")
      (Some m1) = Some (true, Some m2) /\
    m2 !! "reportLocation" = Some (ReportLocation_any mockReportLocation).
Proof.
  destruct (checkAndSetErrorReport_twice ex_frame_assertErrorValue
              ex_frame_NewReportLocation ex_frame_checkAndSetErrorReport
              ex_extractValue ex_frame_runtime_Caller [] (slog.Any "error" mockReportLocationError)
              (slog.String "error" "something went wrong") ex_root
              eq_refl eq_refl)
    as (m1 & m2 & m2' & Hrun1 & Hrun2 & _ & _ & _ & Hstale).
  exists m1, m2. split; [exact Hrun1|]. split; [exact Hrun2|].
  apply Hstale; reflexivity.
Defined.

Lemma checkAndSetErrorReport_dom_witness :
  exists m' : gmap string any,
    checkAndSetErrorReport ex_frame_assertErrorValue
      ex_frame_NewReportLocation ex_frame_checkAndSetErrorReport
      ex_extractValue ex_frame_runtime_Caller [] (slog.Any "error" standardError) (Some ex_root)
    = Some (true, Some m') /\
    dom m' = dom ex_root ∪ {[ "@type"; "message"; "error" ]} ∪ ∅.
Proof.
  destruct (checkAndSetErrorReport_dom ex_frame_assertErrorValue
              ex_frame_NewReportLocation ex_frame_checkAndSetErrorReport
              ex_extractValue ex_frame_runtime_Caller [] (slog.Any "error" standardError) ex_root
              eq_refl)
    as (m' & Hrun & Hdom).
  exists m'. split; [exact Hrun | exact Hdom].
Defined.

Lemma checkAndSetErrorReport_message_is_error_witness :
  exists (m' : gmap string any) (text : string),
    checkAndSetErrorReport ex_frame_assertErrorValue
      ex_frame_NewReportLocation ex_frame_checkAndSetErrorReport
      ex_extractValue ex_frame_runtime_Caller [] (slog.Any "error" mockReportLocationError)
      (Some ex_root) = Some (true, Some m') /\
    m' !! "message" = Some (string_any text) /\
    m' !! "error" = Some (string_any text).
Proof.
  apply (checkAndSetErrorReport_message_is_error ex_frame_assertErrorValue
           ex_frame_NewReportLocation ex_frame_checkAndSetErrorReport
           ex_extractValue ex_frame_runtime_Caller [] (slog.Any "error" mockReportLocationError)
           ex_root eq_refl eq_refl eq_refl).
  left. exists "mockReportLocationError". reflexivity.
Defined.

Lemma checkAndSetErrorReport_unrecognized_witness :
  exists m' : gmap string any,
    checkAndSetErrorReport ex_frame_assertErrorValue
      ex_frame_NewReportLocation ex_frame_checkAndSetErrorReport
      ex_extractValue ex_frame_runtime_Caller [] (slog.Any "error" fooTypeTest) (Some ex_root)
    = Some (true, Some m') /\
    m' !! "message" =
      Some (string_any
              "!!! can't handle error report for type sloggcp.fooType !!!") /\
    m' !! "reportLocation" =
      Some (ReportLocation_any
              {| FilePath := "/src/sloggcp/errors.go";
                 LineNumber := 65;
                 FunctionName :=
                   "github.com/muhlemmer/sloggcp.assertErrorValue" |}) /\
    m' !! "error" =
      Some (map_any [("bar", string_any "baz"); ("baz", int64_any 42)]).
Proof.
  exact (checkAndSetErrorReport_unrecognized ex_frame_assertErrorValue
           ex_frame_NewReportLocation ex_frame_checkAndSetErrorReport
           ex_extractValue ex_frame_runtime_Caller [] (slog.Any "error" fooTypeTest) ex_root
           "github.com/muhlemmer/sloggcp.assertErrorValue"
           eq_refl eq_refl eq_refl eq_refl).
Defined.

Lemma TestHandler_ReplaceAttr_triggers_witness :
  (exists m' : gmap string any,
      checkAndSetErrorReport ex_frame_assertErrorValue
        ex_frame_NewReportLocation ex_frame_checkAndSetErrorReport
        ex_extractValue ex_frame_runtime_Caller []
        (TestHandler_ReplaceAttr [] (slog.String "err" "something went wrong"))
        (Some ex_root) = Some (true, Some m')) /\
  (exists m' : gmap string any,
      checkAndSetErrorReport ex_frame_assertErrorValue
        ex_frame_NewReportLocation ex_frame_checkAndSetErrorReport
        ex_extractValue ex_frame_runtime_Caller []
        (TestHandler_ReplaceAttr ["foo"]
           (slog.String "err" "something went wrong"))
        (Some ex_root) = Some (false, Some m')).
Proof.
  split.
  - destruct (TestHandler_ReplaceAttr_triggers ex_frame_assertErrorValue
                ex_frame_NewReportLocation ex_frame_checkAndSetErrorReport
                ex_extractValue ex_frame_runtime_Caller [] []
                (slog.String "err" "something went wrong") ex_root)
      as (b & m' & Hrun & Hiff).
    exists m'. rewrite Hrun.
    rewrite (proj2 Hiff); [reflexivity|].
    right. split; reflexivity.
  - destruct (TestHandler_ReplaceAttr_triggers ex_frame_assertErrorValue
                ex_frame_NewReportLocation ex_frame_checkAndSetErrorReport
                ex_extractValue ex_frame_runtime_Caller [] ["foo"]
                (slog.String "err" "something went wrong") ex_root)
      as (b & m' & Hrun & Hiff).
    exists m'. rewrite Hrun.
    destruct b; [|reflexivity].
    destruct (proj1 Hiff eq_refl) as [Hk | [Hnil _]]; discriminate.
Defined.

(** ** Extraction on a value whose method panics *)


